(** * rss_fidder: subscriber service, password codec and ping endpoint

    A shallow embedding of [backend/services/subscriber.py],
    [backend/services/utils/codec.py] and the [ping] handler of
    [backend/main.py].

    The service is a set of [async] methods which await the database access
    objects ([DBSubscriber], [RssProviderDatabase]) and call the password
    hashing library, which may refuse a password.  Each method is embedded
    as a program over those calls:
    a finite tree whose nodes are the awaited calls, in the order the source
    makes them, and whose leaves are [return] and [raise].  A [Backend] gives
    the calls their meaning on a state of the world; [run] executes a program
    against it. *)

From Stdlib Require Import String Ascii List Bool Arith ZArith Lia.
From Stdlib Require Import Permutation.
Import ListNotations.
Local Open Scope string_scope.
Local Open Scope list_scope.

(** ** Data model ([models/subscriber.py], [core/exceptions.py]) *)

Module Models.

(** A subscriber as the service reads it: the attributes the source
    accesses are [id], [email], [password], [is_verified] and
    [subscribed_providers]. *)
Record Subscriber : Type := mkSubscriber {
  id : string;
  email : string;
  password : string;
  is_verified : bool;
  subscribed_providers : list string
}.

(** A provider is only ever tested against [None]. *)
Record Provider : Type := mkProvider {
  provider_id : string
}.

(** [subscriber.password = v] *)
Definition set_password (s : Subscriber) (v : string) : Subscriber :=
  mkSubscriber (id s) (email s) v (is_verified s) (subscribed_providers s).

(** [db_subscriber.subscribed_providers = v] *)
Definition set_subscribed_providers (s : Subscriber) (v : list string)
  : Subscriber :=
  mkSubscriber (id s) (email s) (password s) (is_verified s) v.

End Models.
Import Models.

(** The three exception classes the service raises, each with its message,
    and the one the hashing library raises through it when it refuses a
    password ([passlib.exc.PasswordValueError]: a NUL byte in a bcrypt
    password, for one). *)
Inductive exception : Type :=
| NotFoundException (msg : string)
| ExistingDataException (msg : string)
| DatabaseException (msg : string)
| PasswordValueError (msg : string).

(** The error kind, without the message. *)
Inductive error_kind : Type :=
  NotFound | ExistingData | Database | PasswordValue.

Definition kind_of (e : exception) : error_kind :=
  match e with
  | NotFoundException _ => NotFound
  | ExistingDataException _ => ExistingData
  | DatabaseException _ => Database
  | PasswordValueError _ => PasswordValue
  end.

Definition message_of (e : exception) : string :=
  match e with
  | NotFoundException m | ExistingDataException m | DatabaseException m
  | PasswordValueError m => m
  end.

(** What [CryptContext.hash] answers: the digest, or the message of the
    [PasswordValueError] it raises. *)
Inductive hash_answer : Type :=
| Digest (h : string)
| Refused (msg : string).

(** ** Python lists of provider ids *)

(** [x in l] *)
Fixpoint list_contains (x : string) (l : list string) : bool :=
  match l with
  | [] => false
  | y :: l' => if String.eqb x y then true else list_contains x l'
  end.

(** [l.append(x)] *)
Definition list_append (l : list string) (x : string) : list string :=
  l ++ [x].

(** [l.remove(x)]: drops the first occurrence of [x].  Python raises
    [ValueError] when there is none, the service only calls it after
    [x in l]. *)
Fixpoint list_remove (x : string) (l : list string) : list string :=
  match l with
  | [] => []
  | y :: l' => if String.eqb x y then l' else y :: list_remove x l'
  end.

(** ** Values the database layer hands back

    [DBSubscriber.create], [.update] and [.delete] are not part of the
    service: what they return is only tested for truth ([if result:]),
    returned as it is, or unpacked by keyword into the [Subscriber]
    constructor.  The service is embedded over any type of such values. *)
Class Runtime : Type := {
  pyobj : Type;
  (** Python's truth value of an object *)
  truthy : pyobj -> bool;
  (** the [Subscriber] constructor applied to the unpacked mapping *)
  Subscriber_of : pyobj -> Subscriber
}.

(** The keyword arguments of a filter ([**query]): names with their
    values. *)
Definition kwargs : Type := list (string * string).

(** ** Programs over the awaited calls *)

Section Programs.
Context {RT : Runtime}.

(** The calls the service makes outside of itself.  The [get_*] queries
    answer with a model object or [None]; a model object is truthy, so
    [if subscriber:] and [subscriber is None] test the same thing. *)
Inductive call : Type :=
| db_get_by_email (email : string)          (* subscriber_db.get_by_email *)
| db_get_by_id (id : string)                (* subscriber_db.get_by_id *)
| db_create (s : Subscriber)                (* subscriber_db.create *)
| db_update (id : string) (s : Subscriber)  (* subscriber_db.update *)
| db_delete (id : string)                   (* subscriber_db.delete *)
| provider_get_by_id (id : string)          (* RssProviderDatabase.get_by_id *)
| pwd_context_hash (password : string)      (* CryptContext.hash *)
| db_list (query : kwargs)                  (* subscriber_db.list *)
| db_count (query : kwargs).                (* subscriber_db.count *)

Definition answer (c : call) : Type :=
  match c with
  | db_get_by_email _ | db_get_by_id _ => option Subscriber
  | db_create _ | db_update _ _ | db_delete _ => pyobj
  | provider_get_by_id _ => option Provider
  | pwd_context_hash _ => hash_answer
  | db_list _ => list Subscriber
  | db_count _ => Z
  end.

Inductive prog (A : Type) : Type :=
| Return (a : A)
| Raise (e : exception)
| Await (c : call) (k : answer c -> prog A).

Global Arguments Return {A} a.
Global Arguments Raise {A} e.
Global Arguments Await {A} c k.

End Programs.

Notation "x <- 'await' c ;; k" := (Await c (fun x => k))
  (at level 61, c at next level, right associativity, only parsing).

(** ** Password codec ([services/utils/codec.py]) *)

Module PasswordCodec.
Section Codec.
Context {RT : Runtime}.

(** [PasswordCodec().hash(password)]: the hash of the bcrypt context.  When
    the context refuses the password its exception leaves the caller. *)
Definition hash {A} (password : string) (k : string -> prog A) : prog A :=
  answered <- await (pwd_context_hash password) ;;
  match answered with
  | Digest hashed => k hashed
  | Refused msg => Raise (PasswordValueError msg)
  end.

End Codec.
End PasswordCodec.

(** ** Subscriber service ([services/subscriber.py]) *)

Section SubscriberService.
Context {RT : Runtime}.

(** [list]: Rocq has the name for its lists. *)
Definition list_subscribers (query : kwargs) : prog (list Subscriber) :=
  subscribers <- await (db_list query) ;;
  Return subscribers.

Definition count (query : kwargs) : prog Z :=
  n <- await (db_count query) ;;
  Return n.

Definition get_by_email (email : string) : prog Subscriber :=
  subscriber <- await (db_get_by_email email) ;;
  match subscriber with
  | Some subscriber => Return subscriber
  | None =>
      Raise (NotFoundException
               ("Subscriber with email " ++ email ++ " not found"))
  end.

Definition get_by_id (id : string) : prog Subscriber :=
  subscriber <- await (db_get_by_id id) ;;
  match subscriber with
  | Some subscriber => Return subscriber
  | None =>
      Raise (NotFoundException ("Subscriber with id " ++ id ++ " not found"))
  end.

Definition create (subscriber : Subscriber) : prog pyobj :=
  email_search <- await (db_get_by_email (email subscriber)) ;;
  match email_search with
  | Some email_search =>
      if is_verified email_search then
        Raise (ExistingDataException
                 ("Subscriber with email " ++ email subscriber
                    ++ " already exists"))
      else
        Raise (ExistingDataException
                 ("Subscriber with email " ++ email subscriber
                    ++ " has not verified email"))
  | None =>
      PasswordCodec.hash (password subscriber) (fun hashed =>
      let subscriber := set_password subscriber hashed in
      subscriber <- await (db_create subscriber) ;;
      if truthy subscriber then Return subscriber
      else Raise (DatabaseException "Failed to create subscriber"))
  end.

Definition update (id : string) (subscriber : Subscriber)
  : prog Subscriber :=
  db_subscriber <- await (db_get_by_id id) ;;
  match db_subscriber with
  | None =>
      Raise (NotFoundException
               ("Subscriber with id " ++ Models.id subscriber
                  ++ " not found"))
  | Some _ =>
      email_search <- await (db_get_by_email (email subscriber)) ;;
      if match email_search with
         | Some found => String.eqb (Models.id found) (Models.id subscriber)
         | None => false
         end
         || match email_search with None => true | Some _ => false end
      then
        subscriber <- await (db_update id subscriber) ;;
        if truthy subscriber then Return (Subscriber_of subscriber)
        else Raise (DatabaseException "Failed to update subscriber")
      else
        Raise (ExistingDataException
                 ("Subscriber with email " ++ email subscriber
                    ++ " already exists"))
  end.

Definition delete (id : string) : prog bool :=
  db_subscriber <- await (db_get_by_id id) ;;
  match db_subscriber with
  | None =>
      Raise (NotFoundException ("Subscriber with id " ++ id ++ " not found"))
  | Some _ =>
      result <- await (db_delete id) ;;
      if truthy result then Return true
      else Raise (DatabaseException "Failed to delete subscriber")
  end.

Definition provider_follow (id provider_id : string) : prog pyobj :=
  db_subscriber <- await (db_get_by_id id) ;;
  match db_subscriber with
  | None =>
      Raise (NotFoundException ("Subscriber with id " ++ id ++ " not found"))
  | Some db_subscriber =>
      provider <- await (provider_get_by_id provider_id) ;;
      match provider with
      | None =>
          Raise (NotFoundException
                   ("Provider with id " ++ provider_id ++ " not found"))
      | Some _ =>
          let subscriber_providers := subscribed_providers db_subscriber in
          if list_contains provider_id subscriber_providers then
            Raise (ExistingDataException
                     ("Subscriber with id " ++ id
                        ++ " already follows provider with id "
                        ++ provider_id))
          else
            let subscriber_providers :=
              list_append subscriber_providers provider_id in
            let db_subscriber :=
              set_subscribed_providers db_subscriber subscriber_providers in
            result <- await (db_update id db_subscriber) ;;
            Return result
      end
  end.

Definition provider_unfollow (id provider_id : string) : prog pyobj :=
  db_subscriber <- await (db_get_by_id id) ;;
  match db_subscriber with
  | None =>
      Raise (NotFoundException ("Subscriber with id " ++ id ++ " not found"))
  | Some db_subscriber =>
      provider <- await (provider_get_by_id provider_id) ;;
      match provider with
      | None =>
          Raise (NotFoundException
                   ("Provider with id " ++ provider_id ++ " not found"))
      | Some _ =>
          let subscriber_providers := subscribed_providers db_subscriber in
          if negb (list_contains provider_id subscriber_providers) then
            Raise (NotFoundException
                     ("Subscriber with id " ++ id
                        ++ " does not follow provider with id "
                        ++ provider_id))
          else
            let subscriber_providers :=
              list_remove provider_id subscriber_providers in
            let db_subscriber :=
              set_subscribed_providers db_subscriber subscriber_providers in
            result <- await (db_update id db_subscriber) ;;
            Return result
      end
  end.

(** ** The health endpoint ([main.py]) *)

(** [GET /api/v1/ping]: the handler returns the dict [{"ping": "pong"}]. *)
Definition ping : prog (list (string * string)) :=
  Return [("ping", "pong")].

End SubscriberService.

(** ** Running a program against a backend *)

(** What a call of a service method ends in. *)
Inductive outcome (A : Type) : Type :=
| Returned (a : A)
| Raised (e : exception).
Arguments Returned {A} a.
Arguments Raised {A} e.

(** The external collaborators: the two database access objects and the
    hashing context, over a state of the world.  The [get_*], [list] and
    [count] queries read the world; [create], [update], [delete] and the
    (salted) hash may change it. *)
Class Backend {RT : Runtime} (World : Type) : Type := {
  subscriber_by_email : World -> string -> option Subscriber;
  subscriber_by_id : World -> string -> option Subscriber;
  provider_by_id : World -> string -> option Provider;
  create_subscriber : World -> Subscriber -> pyobj * World;
  update_subscriber : World -> string -> Subscriber -> pyobj * World;
  delete_subscriber : World -> string -> pyobj * World;
  bcrypt_hash : World -> string -> hash_answer * World;
  subscribers_matching : World -> kwargs -> list Subscriber;
  count_matching : World -> kwargs -> Z
}.

Section Run.
Context {RT : Runtime} {World : Type} {B : Backend World}.

Definition perform (c : call) (w : World) : answer c * World :=
  match c return answer c * World with
  | db_get_by_email e => (subscriber_by_email w e, w)
  | db_get_by_id i => (subscriber_by_id w i, w)
  | db_create s => create_subscriber w s
  | db_update i s => update_subscriber w i s
  | db_delete i => delete_subscriber w i
  | provider_get_by_id p => (provider_by_id w p, w)
  | pwd_context_hash p => bcrypt_hash w p
  | db_list q => (subscribers_matching w q, w)
  | db_count q => (count_matching w q, w)
  end.

Fixpoint run {A : Type} (p : prog A) (w : World) : outcome A * World :=
  match p with
  | Return a => (Returned a, w)
  | Raise e => (Raised e, w)
  | Await c k => run (k (fst (perform c w))) (snd (perform c w))
  end.

(** The calls a program makes when run from [w], in order. *)
Fixpoint calls {A : Type} (p : prog A) (w : World) : list call :=
  match p with
  | Return _ | Raise _ => []
  | Await c k => c :: calls (k (fst (perform c w))) (snd (perform c w))
  end.

(** The follow list stored for subscriber [i], if there is one. *)
Definition following (w : World) (i : string) : option (list string) :=
  option_map subscribed_providers (subscriber_by_id w i).

(** No stored follow list holds a provider id twice. *)
Definition no_duplicate_follow (w : World) : Prop :=
  forall i l, following w i = Some l -> NoDup l.

End Run.

(** What the service expects of [DBSubscriber.update]: an update that reports
    a result has stored the follow list it was given under that id, one that
    reports none has changed no follow list, and no update touches the
    providers. *)
Class Persistent {RT : Runtime} {World : Type} (B : Backend World) : Prop := {
  update_following :
    forall w i s j,
      following (snd (update_subscriber w i s)) j =
      if truthy (fst (update_subscriber w i s)) && String.eqb j i
      then Some (subscribed_providers s)
      else following w j;
  update_provider :
    forall w i s p,
      provider_by_id (snd (update_subscriber w i s)) p = provider_by_id w p
}.

(** ** An in-memory database *)

(** Modelled from the spec: the database access objects
    ([database/subscriber.py], [database/rss_provider.py]) are not part of
    the service; the spec has them "assumed to expose
    get/list/count/create/update/delete by id/email".  This backend keeps
    the subscribers and the providers in two lists.  It is the concrete
    backend at which the general statements are instantiated. *)
Module MemDB.

Record World : Type := mkWorld {
  subscribers : list Subscriber;
  providers : list Provider
}.

(** The database hands back the stored document, or [None]. *)
Definition runtime : Runtime := {|
  pyobj := option Subscriber;
  truthy := fun o => match o with Some _ => true | None => false end;
  Subscriber_of := fun o =>
    match o with
    | Some s => s
    | None => mkSubscriber "" "" "" false []
    end
|}.

Definition has_id (i : string) (s : Subscriber) : bool :=
  String.eqb (id s) i.

Definition has_email (e : string) (s : Subscriber) : bool :=
  String.eqb (email s) e.

(** The document stored under [i] for the payload [s]. *)
Definition document (i : string) (s : Subscriber) : Subscriber :=
  mkSubscriber i (email s) (password s) (is_verified s)
    (subscribed_providers s).

Fixpoint replace (i : string) (s : Subscriber) (l : list Subscriber)
  : list Subscriber :=
  match l with
  | [] => []
  | x :: l' =>
      (if has_id i x then document i s else x) :: replace i s l'
  end.

Definition update (w : World) (i : string) (s : Subscriber)
  : option Subscriber * World :=
  match find (has_id i) (subscribers w) with
  | Some _ =>
      (Some (document i s),
       mkWorld (replace i s (subscribers w)) (providers w))
  | None => (None, w)
  end.

Definition insert (w : World) (s : Subscriber)
  : option Subscriber * World :=
  (Some s, mkWorld (subscribers w ++ [s]) (providers w)).

Definition remove (w : World) (i : string) : option Subscriber * World :=
  match find (has_id i) (subscribers w) with
  | Some s =>
      (Some s,
       mkWorld (filter (fun x => negb (has_id i x)) (subscribers w))
         (providers w))
  | None => (None, w)
  end.

(** Whether the password holds a NUL byte. *)
Fixpoint has_nul (p : string) : bool :=
  match p with
  | EmptyString => false
  | String c p' => if Ascii.eqb c Ascii.zero then true else has_nul p'
  end.

(** A stand-in for the salted bcrypt hash.  Like the library it refuses a
    password that holds a NUL byte; the digest it answers otherwise is never
    the password. *)
Definition digest (w : World) (p : string) : hash_answer * World :=
  (if has_nul p then Refused "bcrypt does not allow NULL bytes in password"
   else Digest ("$2b$12$" ++ p)%string, w).

(** The filters the in-memory database knows: by [id] and by [email]. *)
Definition matches (query : kwargs) (s : Subscriber) : bool :=
  forallb (fun kv : string * string =>
             if String.eqb (fst kv) "id" then String.eqb (id s) (snd kv)
             else if String.eqb (fst kv) "email"
                  then String.eqb (email s) (snd kv)
                  else false) query.

Definition select (w : World) (query : kwargs) : list Subscriber :=
  filter (matches query) (subscribers w).

Definition backend : @Backend runtime World :=
  @Build_Backend runtime World
    (fun w e => find (has_email e) (subscribers w))
    (fun w i => find (has_id i) (subscribers w))
    (fun w p => find (fun x => String.eqb (provider_id x) p) (providers w))
    insert update remove digest
    select (fun w q => Z.of_nat (List.length (select w q))).

(** Two subscribers, two providers. *)
Definition alice : Subscriber :=
  mkSubscriber "1" "alice@example.com" "$2b$12$secret" true ["p1"].
Definition bob : Subscriber :=
  mkSubscriber "2" "bob@example.com" "$2b$12$hunter2" false [].
Definition world0 : World :=
  mkWorld [alice; bob] [mkProvider "p1"; mkProvider "p2"].

End MemDB.

(** ** Reads and writes *)

Section Writes.
Context {RT : Runtime} {World : Type} {B : Backend World}.

(** The calls that change a stored subscriber: [create], [update] and
    [delete] of the subscriber database. *)
Definition is_write (c : call) : bool :=
  match c with
  | db_create _ | db_update _ _ | db_delete _ => true
  | db_get_by_email _ | db_get_by_id _ | provider_get_by_id _
  | pwd_context_hash _ | db_list _ | db_count _ => false
  end.

(** The queries of the two databases. *)
Definition is_query (c : call) : bool :=
  match c with
  | db_get_by_email _ | db_get_by_id _ | provider_get_by_id _
  | db_list _ | db_count _ => true
  | db_create _ | db_update _ _ | db_delete _ | pwd_context_hash _ => false
  end.

(** A method run from [w] rejects quietly: when it raises NotFound or
    ExistingData it has made queries only, and the world is as it was. *)
Definition rejects_quietly {A : Type} (m : prog A) (w : World) : Prop :=
  forall e,
    fst (run m w) = Raised e ->
    kind_of e = NotFound \/ kind_of e = ExistingData ->
    snd (run m w) = w /\ forallb is_query (calls m w) = true.


(** No call but the last one of a run is a write. *)
Definition writes_only_last {A : Type} (m : prog A) (w : World) : Prop :=
  forallb (fun c => negb (is_write c)) (removelast (calls m w)) = true.

End Writes.

(** What the service expects of [DBSubscriber.create]: a creation that
    reports a result has stored an entry under the email it was given. *)
Class Registering {RT : Runtime} {World : Type} (B : Backend World) : Prop := {
  create_email :
    forall w s,
      truthy (fst (create_subscriber w s)) = true ->
      subscriber_by_email (snd (create_subscriber w s)) (email s) <> None
}.


(** What the service expects of [DBSubscriber.delete]: a deletion that
    reports a result has left no subscriber under that id. *)
Class Deleting {RT : Runtime} {World : Type} (B : Backend World) : Prop := {
  delete_lookup :
    forall w i,
      truthy (fst (delete_subscriber w i)) = true ->
      subscriber_by_id (snd (delete_subscriber w i)) i = None
}.

(** A world of the in-memory database where one subscriber follows two
    providers. *)
Definition world_following_two : MemDB.World :=
  MemDB.mkWorld
    [mkSubscriber "3" "carol@example.com" "$2b$12$pw" true ["p1"; "p2"]]
    [mkProvider "p1"; mkProvider "p2"].

(** Unfolds one service method and runs it up to the first call whose answer
    is not known. *)
Ltac run_service :=
  unfold get_by_email, get_by_id, create, update, delete, provider_follow,
    provider_unfollow, list_subscribers, count, PasswordCodec.hash;
  cbn [run calls perform fst snd answer].

(** Runs on after the answer of a call has been rewritten. *)
Ltac run_on := cbn [run calls perform fst snd answer orb].

(** * Properties *)

(** ** Strings and lists *)


Lemma list_contains_In (x : string) (l : list string) :
  list_contains x l = true <-> In x l.
Proof.
  induction l as [|y l IH]; simpl.
  - split; [discriminate | tauto].
  - destruct (String.eqb_spec x y) as [->|Hxy].
    + split; auto.
    + rewrite IH. split; [auto | intros [E|H]; [congruence | exact H]].
Qed.

Lemma list_contains_not_In (x : string) (l : list string) :
  list_contains x l = false <-> ~ In x l.
Proof.
  rewrite <- list_contains_In. destruct (list_contains x l); split;
    congruence.
Qed.

Lemma list_contains_append (x : string) (l : list string) :
  list_contains x (list_append l x) = true.
Proof.
  apply list_contains_In, in_or_app. right. now left.
Qed.

Lemma list_remove_append (x : string) (l : list string) :
  list_contains x l = false -> list_remove x (list_append l x) = l.
Proof.
  unfold list_append. induction l as [|y l IH]; simpl.
  - now rewrite String.eqb_refl.
  - destruct (String.eqb x y); [discriminate |].
    intros H. now rewrite IH.
Qed.

Lemma In_list_remove (x y : string) (l : list string) :
  In y (list_remove x l) -> In y l.
Proof.
  induction l as [|z l IH]; simpl; [tauto |].
  destruct (String.eqb x z); simpl; intuition.
Qed.

Lemma NoDup_list_append (x : string) (l : list string) :
  NoDup l -> list_contains x l = false -> NoDup (list_append l x).
Proof.
  intros Hl Hx. apply list_contains_not_In in Hx. unfold list_append.
  induction Hl as [|y l Hy Hl IH]; simpl.
  - constructor; [intros [] | constructor].
  - constructor.
    + rewrite in_app_iff. simpl. intros [H|[H|[]]]; [auto |].
      apply Hx. now left.
    + apply IH. intros H. apply Hx. now right.
Qed.

Lemma NoDup_list_remove (x : string) (l : list string) :
  NoDup l -> NoDup (list_remove x l).
Proof.
  induction 1 as [|y l Hy Hl IH]; simpl; [constructor |].
  destruct (String.eqb x y); [exact Hl |].
  constructor; [| exact IH].
  intros H. apply Hy. eapply In_list_remove, H.
Qed.

Lemma list_remove_not_In (x : string) (l : list string) :
  NoDup l -> ~ In x (list_remove x l).
Proof.
  induction 1 as [|y l Hy Hl IH]; simpl; [tauto |].
  destruct (String.eqb_spec x y) as [->|Hxy]; [exact Hy |].
  simpl. intros [E|H]; [congruence | auto].
Qed.

(** ** The in-memory database keeps what it is given *)

Lemma MemDB_find_replace (i j : string) (s : Subscriber)
      (l : list Subscriber) :
  find (MemDB.has_id j) (MemDB.replace i s l) =
  match find (MemDB.has_id j) l with
  | Some x => Some (if MemDB.has_id i x then MemDB.document i s else x)
  | None => None
  end.
Proof.
  induction l as [|x l IH]; simpl; [reflexivity |].
  rewrite IH. unfold MemDB.has_id. simpl.
  destruct (String.eqb_spec (id x) i) as [Hi|Hi];
    destruct (String.eqb_spec (id x) j) as [Hj|Hj]; simpl.
  - subst i j. now rewrite !String.eqb_refl.
  - subst i. destruct (String.eqb_spec (id x) j); [congruence | reflexivity].
  - subst j. destruct (String.eqb_spec (id x) i); [congruence | reflexivity].
  - reflexivity.
Qed.

Lemma MemDB_find_has_id (i : string) (l : list Subscriber) (x : Subscriber) :
  find (MemDB.has_id i) l = Some x -> id x = i.
Proof.
  intros H. apply find_some in H. destruct H as [_ H].
  now apply String.eqb_eq in H.
Qed.

Lemma MemDB_persistent : @Persistent MemDB.runtime MemDB.World MemDB.backend.
Proof.
  split.
  - intros w i s j. unfold following. simpl. unfold MemDB.update.
    destruct (find (MemDB.has_id i) (MemDB.subscribers w)) as [x|] eqn:Hi;
      simpl; [| reflexivity].
    rewrite MemDB_find_replace.
    destruct (String.eqb_spec j i) as [->|Hji].
    + rewrite Hi. apply find_some in Hi. destruct Hi as [_ Hi].
      now rewrite Hi.
    + destruct (find (MemDB.has_id j) (MemDB.subscribers w)) as [y|] eqn:Hj;
        [| reflexivity].
      apply MemDB_find_has_id in Hj. unfold MemDB.has_id.
      destruct (String.eqb_spec (id y) i); [congruence | reflexivity].
  - intros w i s p. simpl. unfold MemDB.update.
    now destruct (find (MemDB.has_id i) (MemDB.subscribers w)).
Qed.

Lemma list_remove_split (x : string) (l : list string) :
  In x l ->
  exists l1 l2, l = l1 ++ x :: l2 /\ ~ In x l1 /\ list_remove x l = l1 ++ l2.
Proof.
  induction l as [|y l IH]; simpl; [tauto |].
  destruct (String.eqb_spec x y) as [->|Hxy].
  - intros _. exists [], l. simpl. tauto.
  - intros [E|H]; [congruence |].
    destruct (IH H) as (l1 & l2 & -> & Hl1 & Hrm).
    exists (y :: l1), l2. simpl. rewrite Hrm.
    repeat split; auto. intros [E|H1]; [congruence | auto].
Qed.

Lemma digest_not_password (w : MemDB.World) (p h : string) :
  fst (MemDB.digest w p) = Digest h -> h <> p.
Proof.
  unfold MemDB.digest. simpl. destruct (MemDB.has_nul p); [discriminate |].
  intros [= <-] H. apply (f_equal String.length) in H. simpl in H. lia.
Qed.

(** ** The service *)

Section ServiceFacts.
Context {RT : Runtime} {World : Type} {B : Backend World}.
Local Open Scope string_scope.


(** C7: [get_by_email] and [get_by_id] raise NotFound exactly when the
    database has no subscriber under the key, and otherwise return the
    stored subscriber, leaving the world as it was. *)
Theorem get_by_key_spec (w : World) (key : string) :
  ((exists msg,
       fst (run (get_by_email key) w) = Raised (NotFoundException msg))
   <-> subscriber_by_email w key = None)
  /\ (forall s, subscriber_by_email w key = Some s ->
                run (get_by_email key) w = (Returned s, w))
  /\ ((exists msg,
          fst (run (get_by_id key) w) = Raised (NotFoundException msg))
      <-> subscriber_by_id w key = None)
  /\ (forall s, subscriber_by_id w key = Some s ->
                run (get_by_id key) w = (Returned s, w)).
Proof.
  repeat split; run_service.
  - destruct (subscriber_by_email w key); [intros [msg H] |]; easy.
  - intros ->. simpl. eauto.
  - now intros s ->.
  - destruct (subscriber_by_id w key); [intros [msg H] |]; easy.
  - intros ->. simpl. eauto.
  - now intros s ->.
Qed.


(** X1: what [update] does, in terms of the id the payload carries: the email
    check compares the owner of the email with [subscriber.id]. *)
Lemma update_spec (w : World) (id : string) (subscriber : Subscriber) :
  let persisted := update_subscriber w id subscriber in
  (subscriber_by_id w id = None ->
   run (update id subscriber) w =
   (Raised (NotFoundException
              ("Subscriber with id " ++ Models.id subscriber
                 ++ " not found")), w))
  /\ (forall s owner,
         subscriber_by_id w id = Some s ->
         subscriber_by_email w (email subscriber) = Some owner ->
         Models.id owner <> Models.id subscriber ->
         run (update id subscriber) w =
         (Raised (ExistingDataException
                    ("Subscriber with email " ++ email subscriber
                       ++ " already exists")), w))
  /\ (forall s,
         subscriber_by_id w id = Some s ->
         (subscriber_by_email w (email subscriber) = None
          \/ exists owner,
               subscriber_by_email w (email subscriber) = Some owner
               /\ Models.id owner = Models.id subscriber) ->
         run (update id subscriber) w =
         (if truthy (fst persisted)
          then Returned (Subscriber_of (fst persisted))
          else Raised (DatabaseException "Failed to update subscriber"),
          snd persisted)).
Proof.
  cbv zeta. repeat split.
  - intros Habsent. run_service. now rewrite Habsent.
  - intros s owner Hs Howner Hid. run_service. rewrite Hs.
    run_on. rewrite Howner.
    apply String.eqb_neq in Hid. now rewrite Hid.
  - intros s Hs Hemail. run_service. rewrite Hs.
    run_on.
    destruct Hemail as [Hfree | (owner & Howner & Hid)].
    + rewrite Hfree. run_on.
      now destruct (truthy _).
    + rewrite Howner, Hid, String.eqb_refl. run_on.
      now destruct (truthy _).
Qed.

(** C8: [delete] raises NotFound when the id is absent and Database when
    the deletion reports no result; whenever it returns, it returns [True],
    which it does exactly when the subscriber exists and the deletion
    reports a result. *)
Theorem delete_spec (w : World) (id : string) :
  (subscriber_by_id w id = None ->
   run (delete id) w =
   (Raised (NotFoundException ("Subscriber with id " ++ id ++ " not found")),
    w))
  /\ (forall s,
         subscriber_by_id w id = Some s ->
         truthy (fst (delete_subscriber w id)) = false ->
         run (delete id) w =
         (Raised (DatabaseException "Failed to delete subscriber"),
          snd (delete_subscriber w id)))
  /\ (forall s,
         subscriber_by_id w id = Some s ->
         truthy (fst (delete_subscriber w id)) = true ->
         run (delete id) w = (Returned true, snd (delete_subscriber w id)))
  /\ (forall b w', run (delete id) w = (Returned b, w') -> b = true).
Proof.
  repeat split.
  - intros Habsent. run_service. now rewrite Habsent.
  - intros s Hs Hres. run_service. rewrite Hs.
    run_on. now rewrite Hres.
  - intros s Hs Hres. run_service. rewrite Hs.
    run_on. now rewrite Hres.
  - intros b w'. run_service.
    destruct (subscriber_by_id w id); cbn [run perform fst snd];
      [| discriminate].
    destruct (truthy _); cbn [run]; congruence.
Qed.

(** C9: whatever the backend and the state of the world, [ping] returns
    the body [{"ping": "pong"}], makes no call to the database or to any
    other collaborator, and leaves the world as it was. *)
Theorem ping_spec (w : World) :
  run ping w = (Returned [("ping", "pong")], w) /\ calls ping w = [].
Proof.
  split; reflexivity.
Qed.

(** *** Following and unfollowing: the four ways out *)

Lemma provider_follow_no_subscriber (w : World) (id p : string) :
  subscriber_by_id w id = None ->
  run (provider_follow id p) w =
  (Raised (NotFoundException ("Subscriber with id " ++ id ++ " not found")),
   w).
Proof. intros H. run_service. now rewrite H. Qed.

Lemma provider_follow_no_provider (w : World) (id p : string) :
  provider_by_id w p = None ->
  exists msg,
    run (provider_follow id p) w = (Raised (NotFoundException msg), w).
Proof.
  intros H. run_service.
  destruct (subscriber_by_id w id); run_on; [rewrite H; run_on |]; eauto.
Qed.

Lemma provider_follow_existing (w : World) (id p : string)
      (s : Subscriber) (pr : Provider) :
  subscriber_by_id w id = Some s ->
  provider_by_id w p = Some pr ->
  list_contains p (subscribed_providers s) = true ->
  run (provider_follow id p) w =
  (Raised (ExistingDataException
             ("Subscriber with id " ++ id
                ++ " already follows provider with id " ++ p)), w).
Proof.
  intros Hs Hp Hin. run_service. rewrite Hs. run_on. rewrite Hp.
  now rewrite Hin.
Qed.

Lemma provider_follow_appends (w : World) (id p : string)
      (s : Subscriber) (pr : Provider) :
  subscriber_by_id w id = Some s ->
  provider_by_id w p = Some pr ->
  list_contains p (subscribed_providers s) = false ->
  let s' :=
    set_subscribed_providers s (list_append (subscribed_providers s) p) in
  run (provider_follow id p) w =
  (Returned (fst (update_subscriber w id s')),
   snd (update_subscriber w id s')).
Proof.
  intros Hs Hp Hin. run_service. rewrite Hs. run_on. rewrite Hp.
  now rewrite Hin.
Qed.

Lemma provider_unfollow_no_subscriber (w : World) (id p : string) :
  subscriber_by_id w id = None ->
  run (provider_unfollow id p) w =
  (Raised (NotFoundException ("Subscriber with id " ++ id ++ " not found")),
   w).
Proof. intros H. run_service. now rewrite H. Qed.

Lemma provider_unfollow_no_provider (w : World) (id p : string) :
  provider_by_id w p = None ->
  exists msg,
    run (provider_unfollow id p) w = (Raised (NotFoundException msg), w).
Proof.
  intros H. run_service.
  destruct (subscriber_by_id w id); run_on; [rewrite H; run_on |]; eauto.
Qed.

Lemma provider_unfollow_not_following (w : World) (id p : string)
      (s : Subscriber) (pr : Provider) :
  subscriber_by_id w id = Some s ->
  provider_by_id w p = Some pr ->
  list_contains p (subscribed_providers s) = false ->
  run (provider_unfollow id p) w =
  (Raised (NotFoundException
             ("Subscriber with id " ++ id
                ++ " does not follow provider with id " ++ p)), w).
Proof.
  intros Hs Hp Hin. run_service. rewrite Hs. run_on. rewrite Hp.
  now rewrite Hin.
Qed.

Lemma provider_unfollow_removes (w : World) (id p : string)
      (s : Subscriber) (pr : Provider) :
  subscriber_by_id w id = Some s ->
  provider_by_id w p = Some pr ->
  list_contains p (subscribed_providers s) = true ->
  let s' :=
    set_subscribed_providers s (list_remove p (subscribed_providers s)) in
  run (provider_unfollow id p) w =
  (Returned (fst (update_subscriber w id s')),
   snd (update_subscriber w id s')).
Proof.
  intros Hs Hp Hin. run_service. rewrite Hs. run_on. rewrite Hp.
  now rewrite Hin.
Qed.

(** A follow that returns has gone through the update. *)
Lemma provider_follow_returned (w w' : World) (id p : string) (r : pyobj) :
  run (provider_follow id p) w = (Returned r, w') ->
  exists s pr,
    subscriber_by_id w id = Some s
    /\ provider_by_id w p = Some pr
    /\ list_contains p (subscribed_providers s) = false
    /\ (r, w') =
       update_subscriber w id
         (set_subscribed_providers s
            (list_append (subscribed_providers s) p)).
Proof.
  run_service.
  destruct (subscriber_by_id w id) as [s|]; run_on; [| discriminate].
  destruct (provider_by_id w p) as [pr|]; run_on; [| discriminate].
  destruct (list_contains p (subscribed_providers s)) eqn:Hin; run_on;
    [discriminate |].
  intros H. exists s, pr. split; [reflexivity |].
  split; [reflexivity |]. split; [exact Hin |].
  inversion H. now destruct (update_subscriber _ _ _).
Qed.


(** C4: [provider_unfollow] raises NotFound when the subscriber is absent,
    when the provider is absent, and when the provider id is not in the
    follow list; otherwise it hands the subscriber, every attribute as it
    was read but the follow list, which has the (first occurrence of the)
    provider id taken out, to the database update and returns its result. *)
Theorem provider_unfollow_spec (w : World) (id provider_id : string) :
  (subscriber_by_id w id = None ->
   exists msg,
     run (provider_unfollow id provider_id) w =
     (Raised (NotFoundException msg), w))
  /\ (provider_by_id w provider_id = None ->
      exists msg,
        run (provider_unfollow id provider_id) w =
        (Raised (NotFoundException msg), w))
  /\ (forall s pr,
         subscriber_by_id w id = Some s ->
         provider_by_id w provider_id = Some pr ->
         ~ In provider_id (subscribed_providers s) ->
         exists msg,
           run (provider_unfollow id provider_id) w =
           (Raised (NotFoundException msg), w))
  /\ (forall s pr,
         subscriber_by_id w id = Some s ->
         provider_by_id w provider_id = Some pr ->
         In provider_id (subscribed_providers s) ->
         exists l1 l2,
           subscribed_providers s = (l1 ++ provider_id :: l2)%list
           /\ ~ In provider_id l1
           /\ let s' :=
                mkSubscriber (Models.id s) (email s) (password s)
                  (is_verified s) (l1 ++ l2)%list in
              calls (provider_unfollow id provider_id) w =
              [db_get_by_id id; provider_get_by_id provider_id;
               db_update id s']
              /\ run (provider_unfollow id provider_id) w =
                 (Returned (fst (update_subscriber w id s')),
                  snd (update_subscriber w id s'))).
Proof.
  split; [| split; [| split]].
  - intros H. rewrite (provider_unfollow_no_subscriber _ _ _ H). eauto.
  - apply provider_unfollow_no_provider.
  - intros s pr Hs Hp Hin. apply list_contains_not_In in Hin.
    rewrite (provider_unfollow_not_following _ _ _ _ _ Hs Hp Hin). eauto.
  - intros s pr Hs Hp Hin.
    destruct (list_remove_split _ _ Hin) as (l1 & l2 & Hl & Hl1 & Hrm).
    apply list_contains_In in Hin.
    exists l1, l2. split; [exact Hl |]. split; [exact Hl1 |].
    cbv zeta. rewrite <- Hrm.
    change (mkSubscriber (Models.id s) (email s) (password s) (is_verified s)
              (list_remove provider_id (subscribed_providers s)))
      with (set_subscribed_providers s
              (list_remove provider_id (subscribed_providers s))).
    split.
    + run_service. rewrite Hs. run_on. rewrite Hp. now rewrite Hin.
    + exact (provider_unfollow_removes _ _ _ _ _ Hs Hp Hin).
Qed.

(** C5: over a database that keeps what it is given, when the follow list
    [l] of subscriber [id] does not hold [p] and [provider_follow id p]
    returns with an update that reported a result, the list is [l] with
    [p] at its end; [provider_unfollow id p] then returns, hands exactly
    [l] back to the database, and once that update reports a result the
    stored list is [l] again, with [p] nowhere in it. *)
Theorem follow_then_unfollow_restores {P : Persistent B} (w w1 : World)
        (id p : string) (l : list string) (r : pyobj) :
  following w id = Some l ->
  ~ In p l ->
  run (provider_follow id p) w = (Returned r, w1) ->
  truthy r = true ->
  following w1 id = Some (list_append l p)
  /\ exists s1,
      subscriber_by_id w1 id = Some s1
      /\ run (provider_unfollow id p) w1 =
         (Returned
            (fst (update_subscriber w1 id (set_subscribed_providers s1 l))),
          snd (update_subscriber w1 id (set_subscribed_providers s1 l)))
      /\ (truthy
            (fst (update_subscriber w1 id (set_subscribed_providers s1 l)))
          = true ->
          following (snd (run (provider_unfollow id p) w1)) id = Some l
          /\ ~ In p l).
Proof.
  intros Hl Hfresh Hrun Hr.
  destruct (provider_follow_returned _ _ _ _ _ Hrun)
    as (s & pr & Hs & Hp & Hin & Hupd).
  unfold following in Hl. rewrite Hs in Hl. simpl in Hl.
  injection Hl as Hl. rewrite Hl in Hupd.
  set (s' := set_subscribed_providers s _) in Hupd.
  assert (Hw1 : w1 = snd (update_subscriber w id s')) by now rewrite <- Hupd.
  assert (Hr1 : r = fst (update_subscriber w id s')) by now rewrite <- Hupd.
  pose proof (update_following w id s' id) as Hfol.
  rewrite <- Hr1, <- Hw1, Hr, String.eqb_refl in Hfol. simpl in Hfol.
  split; [exact Hfol |].
  unfold following in Hfol.
  destruct (subscriber_by_id w1 id) as [s1|] eqn:Hs1; [| discriminate].
  simpl in Hfol. injection Hfol as Hfol.
  assert (Hp1 : provider_by_id w1 p = Some pr)
    by now rewrite Hw1, update_provider.
  assert (Hin1 : list_contains p (subscribed_providers s1) = true)
    by (rewrite Hfol; apply list_contains_append).
  assert (Hrm : list_remove p (subscribed_providers s1) = l)
    by (rewrite Hfol; apply list_remove_append;
        now apply list_contains_not_In).
  pose proof (provider_unfollow_removes _ _ _ _ _ Hs1 Hp1 Hin1) as Hun.
  cbv zeta in Hun. rewrite Hrm in Hun.
  exists s1. split; [reflexivity |]. split; [exact Hun |].
  intros Hr2. split; [| exact Hfresh].
  rewrite Hun. cbn [snd].
  rewrite update_following, Hr2, String.eqb_refl. reflexivity.
Qed.

(** For all subscribers at once: over a database that keeps what it is
    given, [provider_follow] and [provider_unfollow] preserve the property
    that no stored follow list holds a provider id twice. *)
Lemma follow_unfollow_keep_no_duplicate {P : Persistent B} (w : World)
        (id p : string) :
  no_duplicate_follow w ->
  no_duplicate_follow (snd (run (provider_follow id p) w))
  /\ no_duplicate_follow (snd (run (provider_unfollow id p) w)).
Proof.
  intros Hinv.
  assert (Hupd : forall s l,
             subscriber_by_id w id = Some s ->
             (NoDup (subscribed_providers s) -> NoDup l) ->
             no_duplicate_follow
               (snd (update_subscriber w id
                       (set_subscribed_providers s l)))).
  { intros s l Hs Hl j lj. rewrite update_following.
    destruct (truthy _ && String.eqb j id).
    - simpl. intros [= <-]. apply Hl, (Hinv id).
      unfold following. now rewrite Hs.
    - apply Hinv. }
  split.
  - destruct (subscriber_by_id w id) as [s|] eqn:Hs;
      [| now rewrite provider_follow_no_subscriber].
    destruct (provider_by_id w p) as [pr|] eqn:Hp.
    + destruct (list_contains p (subscribed_providers s)) eqn:Hin.
      * now rewrite (provider_follow_existing _ _ _ _ _ Hs Hp Hin).
      * rewrite (provider_follow_appends _ _ _ _ _ Hs Hp Hin). cbn [snd].
        apply Hupd; [reflexivity |]. intros Hnd.
        now apply NoDup_list_append.
    + destruct (provider_follow_no_provider w id p Hp) as [msg ->].
      exact Hinv.
  - destruct (subscriber_by_id w id) as [s|] eqn:Hs;
      [| now rewrite provider_unfollow_no_subscriber].
    destruct (provider_by_id w p) as [pr|] eqn:Hp.
    + destruct (list_contains p (subscribed_providers s)) eqn:Hin.
      * rewrite (provider_unfollow_removes _ _ _ _ _ Hs Hp Hin). cbn [snd].
        apply Hupd; [reflexivity |]. apply NoDup_list_remove.
      * now rewrite (provider_unfollow_not_following _ _ _ _ _ Hs Hp Hin).
    + destruct (provider_unfollow_no_provider w id p Hp) as [msg ->].
      exact Hinv.
Qed.

(** C10: [provider_follow] and [provider_unfollow] never raise Database:
    once their checks pass they return the result of the database update
    as it is, truthy or not.  [create], [update] and [delete] raise
    Database when the database reports no result. *)
Theorem follow_unfollow_return_update_result (w : World)
        (id provider_id : string) :
  (forall msg,
      fst (run (provider_follow id provider_id) w) <>
      Raised (DatabaseException msg))
  /\ (forall msg,
         fst (run (provider_unfollow id provider_id) w) <>
         Raised (DatabaseException msg))
  /\ (forall s pr,
         subscriber_by_id w id = Some s ->
         provider_by_id w provider_id = Some pr ->
         list_contains provider_id (subscribed_providers s) = false ->
         fst (run (provider_follow id provider_id) w) =
         Returned
           (fst (update_subscriber w id
                   (set_subscribed_providers s
                      (list_append (subscribed_providers s)
                         provider_id)))))
  /\ (forall s pr,
         subscriber_by_id w id = Some s ->
         provider_by_id w provider_id = Some pr ->
         list_contains provider_id (subscribed_providers s) = true ->
         fst (run (provider_unfollow id provider_id) w) =
         Returned
           (fst (update_subscriber w id
                   (set_subscribed_providers s
                      (list_remove provider_id
                         (subscribed_providers s))))))
  /\ (forall subscriber hashed,
         subscriber_by_email w (email subscriber) = None ->
         fst (bcrypt_hash w (password subscriber)) = Digest hashed ->
         truthy
           (fst (create_subscriber
                   (snd (bcrypt_hash w (password subscriber)))
                   (set_password subscriber hashed)))
         = false ->
         fst (run (create subscriber) w) =
         Raised (DatabaseException "Failed to create subscriber"))
  /\ (forall s subscriber,
         subscriber_by_id w id = Some s ->
         subscriber_by_email w (email subscriber) = None ->
         truthy (fst (update_subscriber w id subscriber)) = false ->
         fst (run (update id subscriber) w) =
         Raised (DatabaseException "Failed to update subscriber"))
  /\ (forall s,
         subscriber_by_id w id = Some s ->
         truthy (fst (delete_subscriber w id)) = false ->
         fst (run (delete id) w) =
         Raised (DatabaseException "Failed to delete subscriber")).
Proof.
  split; [| split; [| split; [| split; [| split; [| split]]]]].
  - intros msg. run_service.
    destruct (subscriber_by_id w id) as [s|]; run_on; [| discriminate].
    destruct (provider_by_id w provider_id); run_on; [| discriminate].
    destruct (list_contains provider_id (subscribed_providers s)); run_on;
      discriminate.
  - intros msg. run_service.
    destruct (subscriber_by_id w id) as [s|]; run_on; [| discriminate].
    destruct (provider_by_id w provider_id); run_on; [| discriminate].
    destruct (list_contains provider_id (subscribed_providers s));
      cbn [negb]; run_on; discriminate.
  - intros s pr Hs Hp Hin.
    now rewrite (provider_follow_appends _ _ _ _ _ Hs Hp Hin).
  - intros s pr Hs Hp Hin.
    now rewrite (provider_unfollow_removes _ _ _ _ _ Hs Hp Hin).
  - intros subscriber hashed Hfree Hhash Hres. run_service.
    rewrite Hfree. run_on. rewrite Hhash. run_on. now rewrite Hres.
  - intros s subscriber Hs Hfree Hres. run_service. rewrite Hs. run_on.
    rewrite Hfree. run_on. now rewrite Hres.
  - intros s Hs Hres. run_service. rewrite Hs. run_on. now rewrite Hres.
Qed.

End ServiceFacts.

(** ** The service over the in-memory database *)

Section OverMemDB.
Local Existing Instance MemDB.runtime.
Local Existing Instance MemDB.backend.
Local Open Scope string_scope.

Lemma MemDB_no_duplicate_follow (w : MemDB.World) :
  Forall (fun s => NoDup (subscribed_providers s)) (MemDB.subscribers w) ->
  no_duplicate_follow w.
Proof.
  intros H i l. unfold following.
  change (subscriber_by_id w i)
    with (find (MemDB.has_id i) (MemDB.subscribers w)).
  destruct (find (MemDB.has_id i) (MemDB.subscribers w)) as [s|] eqn:Hs;
    simpl; [| discriminate].
  intros [= <-]. apply find_some in Hs. destruct Hs as [Hs _].
  rewrite Forall_forall in H. now apply H.
Qed.

Lemma world0_no_duplicate_follow : no_duplicate_follow MemDB.world0.
Proof.
  apply MemDB_no_duplicate_follow. simpl.
  repeat constructor; simpl; tauto.
Qed.

(** C2: [update] decides whether the email is the subscriber's own by the
    id the payload carries, not by the [id] it is called with.  In a world
    where subscriber 1 is alice and subscriber 2 is bob, updating
    subscriber 1 with a payload that carries bob's email and bob's id goes
    through and leaves two subscribers with bob's email; updating
    subscriber 1 with her own unchanged email in a payload that carries no
    id of hers raises ExistingData. *)
Theorem update_compares_payload_id :
  subscriber_by_id MemDB.world0 "1" = Some MemDB.alice
  /\ subscriber_by_email MemDB.world0 "bob@example.com" = Some MemDB.bob
  /\ fst (run (update "1" (mkSubscriber "2" "bob@example.com" "pw" true []))
            MemDB.world0) =
     Returned (mkSubscriber "1" "bob@example.com" "pw" true [])
  /\ map email
       (MemDB.subscribers
          (snd (run (update "1"
                       (mkSubscriber "2" "bob@example.com" "pw" true []))
                  MemDB.world0))) =
     ["bob@example.com"; "bob@example.com"]
  /\ subscriber_by_email MemDB.world0 "alice@example.com" = Some MemDB.alice
  /\ fst (run (update "1"
                 (mkSubscriber "" "alice@example.com" "pw" true ["p1"]))
            MemDB.world0) =
     Raised (ExistingDataException
               "Subscriber with email alice@example.com already exists").
Proof.
  repeat split.
Qed.





Lemma follow_then_unfollow_restores_witness :
  following MemDB.world0 "1" = Some ["p1"]
  /\ following (snd (run (provider_follow "1" "p2") MemDB.world0)) "1" =
     Some ["p1"; "p2"]
  /\ following
       (snd (run (provider_unfollow "1" "p2")
               (snd (run (provider_follow "1" "p2") MemDB.world0)))) "1" =
     Some ["p1"].
Proof.
  assert (Hfresh : ~ In "p2" ["p1"]) by (simpl; intros [H|[]]; discriminate).
  pose proof (follow_then_unfollow_restores (P := MemDB_persistent)
                MemDB.world0 _ "1" "p2" ["p1"] _
                eq_refl Hfresh eq_refl eq_refl)
    as (Hfol & s1 & Hs1 & _ & Hback).
  split; [reflexivity |]. split; [exact Hfol |].
  injection Hs1 as <-. exact (proj1 (Hback eq_refl)).
Defined.

End OverMemDB.


(** ** More on the service: outcomes, writes and how the methods compose *)

(** Takes a run apart along every answer it branches on. *)
Ltac explore_run :=
  run_service;
  repeat (match goal with
          | |- context [match ?x with Some _ => _ | None => _ end] =>
              destruct x eqn:?
          | |- context [match ?x with Digest _ => _ | Refused _ => _ end] =>
              destruct x eqn:?
          | |- context [if ?b then _ else _] => destruct b eqn:?
          end; run_on).

Section ServiceOutcomes.
Context {RT : Runtime} {World : Type} {B : Backend World}.
Local Open Scope string_scope.

(** X2: a method that raises NotFound or ExistingData has made queries
    only (no [create], [update] or [delete], and no hash), and leaves the
    world as it found it. *)
Theorem failed_checks_write_nothing (w : World) (id p : string)
        (subscriber : Subscriber) :
  rejects_quietly (get_by_email id) w
  /\ rejects_quietly (get_by_id id) w
  /\ rejects_quietly (create subscriber) w
  /\ rejects_quietly (update id subscriber) w
  /\ rejects_quietly (delete id) w
  /\ rejects_quietly (provider_follow id p) w
  /\ rejects_quietly (provider_unfollow id p) w.
Proof.
  unfold rejects_quietly.
  repeat apply conj; explore_run; intros e Hraised Hkind;
    try discriminate;
    inversion Hraised; subst; cbn [kind_of] in Hkind;
    solve [destruct Hkind; discriminate | split; reflexivity].
Qed.


(** X4: no method writes twice, and none queries after it has written: in
    every run, every call before the last one is a query or the hash.  The
    getters make a single query and nothing else. *)
Theorem writes_come_last (w : World) (id p : string)
        (subscriber : Subscriber) :
  calls (get_by_email id) w = [db_get_by_email id]
  /\ calls (get_by_id id) w = [db_get_by_id id]
  /\ writes_only_last (create subscriber) w
  /\ writes_only_last (update id subscriber) w
  /\ writes_only_last (delete id) w
  /\ writes_only_last (provider_follow id p) w
  /\ writes_only_last (provider_unfollow id p) w.
Proof.
  unfold writes_only_last.
  repeat apply conj; explore_run; reflexivity.
Qed.

(** Goes through the calls of an explored run one by one. *)
Ltac each_call H :=
  cbn [In] in H;
  repeat match type of H with
         | _ \/ _ => destruct H as [H | H]
         end;
  try contradiction; subst.

(** X10: [update] never calls the hash, and what it writes is the payload
    as it was given, under the id it was called with: the password of the
    payload reaches the database unhashed. *)
Theorem update_writes_payload_as_given (w : World) (id : string)
        (subscriber : Subscriber) :
  (forall c,
      In c (calls (update id subscriber) w) ->
      is_write c = true ->
      c = db_update id subscriber)
  /\ (forall c pw,
         In c (calls (update id subscriber) w) -> c <> pwd_context_hash pw).
Proof.
  split.
  - intros c. explore_run; intros Hc Hw; each_call Hc;
      solve [discriminate | reflexivity].
  - intros c pw. explore_run; intros Hc; each_call Hc; discriminate.
Qed.

(** X11: whatever [provider_follow] and [provider_unfollow] write is the
    subscriber the database answered for that id, written back under the
    same id with the follow list replaced and every other attribute as it
    was read. *)
Theorem follow_unfollow_write_back_stored (w : World) (id p : string) :
  (forall c,
      In c (calls (provider_follow id p) w) ->
      is_write c = true ->
      exists s,
        subscriber_by_id w id = Some s
        /\ c = db_update id
                 (mkSubscriber (Models.id s) (email s) (password s)
                    (is_verified s)
                    (list_append (subscribed_providers s) p)))
  /\ (forall c,
         In c (calls (provider_unfollow id p) w) ->
         is_write c = true ->
         exists s,
           subscriber_by_id w id = Some s
           /\ c = db_update id
                    (mkSubscriber (Models.id s) (email s) (password s)
                       (is_verified s)
                       (list_remove p (subscribed_providers s)))).
Proof.
  split; intros c; explore_run; intros Hc Hw; each_call Hc;
    try discriminate; eexists; split; reflexivity.
Qed.

End ServiceOutcomes.

(** *** Lists: what [remove] leaves *)

Lemma count_occ_list_remove (x : string) (l : list string) :
  In x l ->
  count_occ string_dec (list_remove x l) x = count_occ string_dec l x - 1.
Proof.
  induction l as [|y l IH]; simpl; [tauto |].
  destruct (String.eqb_spec x y) as [->|Hxy].
  - intros _. destruct (string_dec y y); [lia | congruence].
  - intros [E|H]; [congruence |]. simpl.
    destruct (string_dec y x); [congruence | auto].
Qed.

Lemma list_contains_count_occ (x : string) (l : list string) :
  list_contains x l = false <-> count_occ string_dec l x = 0.
Proof.
  rewrite list_contains_not_In. apply count_occ_not_In.
Qed.

Lemma Permutation_list_remove_append (x : string) (l : list string) :
  In x l -> Permutation l (list_append (list_remove x l) x).
Proof.
  intros H. destruct (list_remove_split _ _ H) as (l1 & l2 & -> & _ & ->).
  unfold list_append. rewrite <- app_assoc.
  apply Permutation_app_head, Permutation_cons_append.
Qed.

Section ServiceComposition.
Context {RT : Runtime} {World : Type} {B : Backend World}.
Local Open Scope string_scope.

(** An unfollow that returns has gone through the update. *)
Lemma provider_unfollow_returned (w w' : World) (id p : string) (r : pyobj) :
  run (provider_unfollow id p) w = (Returned r, w') ->
  exists s pr,
    subscriber_by_id w id = Some s
    /\ provider_by_id w p = Some pr
    /\ list_contains p (subscribed_providers s) = true
    /\ (r, w') =
       update_subscriber w id
         (set_subscribed_providers s
            (list_remove p (subscribed_providers s))).
Proof.
  run_service.
  destruct (subscriber_by_id w id) as [s|]; run_on; [| discriminate].
  destruct (provider_by_id w p) as [pr|]; run_on; [| discriminate].
  destruct (list_contains p (subscribed_providers s)) eqn:Hin;
    cbn [negb]; run_on; [| discriminate].
  intros H. exists s, pr. split; [reflexivity |].
  split; [reflexivity |]. split; [exact Hin |].
  inversion H. now destruct (update_subscriber _ _ _).
Qed.

(** What a persisted unfollow leaves behind. *)
Lemma provider_unfollow_persisted {P : Persistent B} (w w1 : World)
      (id p : string) (l : list string) (r : pyobj) :
  following w id = Some l ->
  run (provider_unfollow id p) w = (Returned r, w1) ->
  truthy r = true ->
  In p l
  /\ exists s1 pr,
      subscriber_by_id w1 id = Some s1
      /\ subscribed_providers s1 = list_remove p l
      /\ provider_by_id w1 p = Some pr.
Proof.
  intros Hl Hrun Hr.
  destruct (provider_unfollow_returned _ _ _ _ _ Hrun)
    as (s & pr & Hs & Hp & Hin & Hupd).
  unfold following in Hl. rewrite Hs in Hl. simpl in Hl.
  injection Hl as Hl. rewrite Hl in Hupd, Hin.
  set (s' := set_subscribed_providers s _) in Hupd.
  assert (Hw1 : w1 = snd (update_subscriber w id s')) by now rewrite <- Hupd.
  assert (Hr1 : r = fst (update_subscriber w id s')) by now rewrite <- Hupd.
  pose proof (update_following w id s' id) as Hfol.
  rewrite <- Hr1, <- Hw1, Hr, String.eqb_refl in Hfol. simpl in Hfol.
  unfold following in Hfol.
  destruct (subscriber_by_id w1 id) as [s1|] eqn:Hs1; [| discriminate].
  simpl in Hfol. injection Hfol as Hfol.
  split; [now apply list_contains_In |].
  exists s1, pr. split; [reflexivity |]. split; [exact Hfol |].
  now rewrite Hw1, update_provider.
Qed.

(** X5: over a database that keeps what it is given, unfollowing a provider
    and following it again does not restore the order of a duplicate-free
    follow list: the provider moves to the end.  The follow hands the list
    without the provider, then the provider, to the database; the stored
    list is a permutation of the one before. *)
Theorem unfollow_then_follow_moves_to_end {P : Persistent B} (w w1 : World)
        (id p : string) (l : list string) (r : pyobj) :
  following w id = Some l ->
  NoDup l ->
  run (provider_unfollow id p) w = (Returned r, w1) ->
  truthy r = true ->
  following w1 id = Some (list_remove p l)
  /\ Permutation l (list_append (list_remove p l) p)
  /\ exists s1,
      subscriber_by_id w1 id = Some s1
      /\ run (provider_follow id p) w1 =
         (Returned
            (fst (update_subscriber w1 id
                    (set_subscribed_providers s1
                       (list_append (list_remove p l) p)))),
          snd (update_subscriber w1 id
                 (set_subscribed_providers s1
                    (list_append (list_remove p l) p))))
      /\ (truthy
            (fst (update_subscriber w1 id
                    (set_subscribed_providers s1
                       (list_append (list_remove p l) p)))) = true ->
          following (snd (run (provider_follow id p) w1)) id =
          Some (list_append (list_remove p l) p)).
Proof.
  intros Hl Hnd Hrun Hr.
  destruct (provider_unfollow_persisted _ _ _ _ _ _ Hl Hrun Hr)
    as (Hin & s1 & pr & Hs1 & Hl1 & Hp1).
  split; [unfold following; now rewrite Hs1, <- Hl1 |].
  split; [now apply Permutation_list_remove_append |].
  assert (Hout : list_contains p (subscribed_providers s1) = false)
    by (rewrite Hl1; apply list_contains_not_In;
        now apply list_remove_not_In).
  pose proof (provider_follow_appends _ _ _ _ _ Hs1 Hp1 Hout) as Hfo.
  cbv zeta in Hfo. rewrite Hl1 in Hfo.
  exists s1. split; [exact Hs1 |]. split; [exact Hfo |].
  intros Hr2. rewrite Hfo. cbn [snd].
  rewrite update_following, Hr2, String.eqb_refl. reflexivity.
Qed.

(** X6: over a database that keeps what it is given, a persisted unfollow
    takes exactly one occurrence of the provider out of the stored follow
    list, and a second identical unfollow raises NotFound exactly when the
    provider was in the list once. *)
Theorem second_unfollow_not_found_iff_single {P : Persistent B}
        (w w1 : World) (id p : string) (l : list string) (r : pyobj) :
  following w id = Some l ->
  run (provider_unfollow id p) w = (Returned r, w1) ->
  truthy r = true ->
  following w1 id = Some (list_remove p l)
  /\ count_occ string_dec (list_remove p l) p = count_occ string_dec l p - 1
  /\ ((exists msg,
          run (provider_unfollow id p) w1 =
          (Raised (NotFoundException msg), w1))
      <-> count_occ string_dec l p = 1).
Proof.
  intros Hl Hrun Hr.
  destruct (provider_unfollow_persisted _ _ _ _ _ _ Hl Hrun Hr)
    as (Hin & s1 & pr & Hs1 & Hl1 & Hp1).
  pose proof (count_occ_list_remove _ _ Hin) as Hcount.
  assert (Hpos : count_occ string_dec l p > 0) by now apply count_occ_In.
  split; [unfold following; now rewrite Hs1, <- Hl1 |].
  split; [exact Hcount |].
  destruct (list_contains p (subscribed_providers s1)) eqn:Hc.
  - rewrite (provider_unfollow_removes _ _ _ _ _ Hs1 Hp1 Hc).
    split; [intros [msg H]; discriminate |].
    intros Hone. rewrite Hl1 in Hc.
    assert (Hz : list_contains p (list_remove p l) = false)
      by (apply list_contains_count_occ; lia).
    congruence.
  - rewrite (provider_unfollow_not_following _ _ _ _ _ Hs1 Hp1 Hc).
    split; [| eauto]. intros _.
    rewrite Hl1 in Hc. apply list_contains_count_occ in Hc. lia.
Qed.

(** X7: over a database that keeps what it is given, following or
    unfollowing a provider changes the follow list of no other subscriber
    and the lookup of no provider, whatever the outcome. *)
Theorem follow_unfollow_frame {P : Persistent B} (w : World)
        (id p : string) :
  (forall j, j <> id ->
             following (snd (run (provider_follow id p) w)) j =
             following w j)
  /\ (forall j, j <> id ->
                following (snd (run (provider_unfollow id p) w)) j =
                following w j)
  /\ (forall q, provider_by_id (snd (run (provider_follow id p) w)) q =
                provider_by_id w q)
  /\ (forall q, provider_by_id (snd (run (provider_unfollow id p) w)) q =
                provider_by_id w q).
Proof.
  repeat apply conj; intros j; try intros Hj; explore_run;
    try reflexivity; cbn [negb] in *;
    try (rewrite update_following;
         apply String.eqb_neq in Hj; rewrite Hj, andb_false_r; reflexivity);
    try apply update_provider.
Qed.

(** A creation that returns has gone through the hash and the database. *)
Lemma create_returned (w w1 : World) (s : Subscriber) (r : pyobj) :
  run (create s) w = (Returned r, w1) ->
  subscriber_by_email w (email s) = None
  /\ truthy r = true
  /\ exists hashed,
      fst (bcrypt_hash w (password s)) = Digest hashed
      /\ (r, w1) =
         create_subscriber (snd (bcrypt_hash w (password s)))
           (set_password s hashed).
Proof.
  run_service.
  destruct (subscriber_by_email w (email s)) as [found|]; run_on.
  - destruct (is_verified found); discriminate.
  - destruct (fst (bcrypt_hash w (password s))) as [hashed|msg] eqn:Hh;
      run_on; [| discriminate].
    destruct (truthy _) eqn:Hr; run_on; [| discriminate].
    intros H. inversion H. split; [reflexivity |].
    split; [exact Hr |]. exists hashed. split; [reflexivity |].
    now destruct (create_subscriber _ _).
Qed.

(** X8: over a database whose creation stores what it reports, once
    [create] has returned, any further [create] with the same email raises
    ExistingData after the email query alone: nothing is hashed or written,
    and the world stays as it is. *)
Theorem create_twice_existing_data {R : Registering B} (w w1 : World)
        (s s2 : Subscriber) (r : pyobj) :
  run (create s) w = (Returned r, w1) ->
  email s2 = email s ->
  (exists msg,
      run (create s2) w1 = (Raised (ExistingDataException msg), w1))
  /\ calls (create s2) w1 = [db_get_by_email (email s)].
Proof.
  intros Hrun Hemail.
  destruct (create_returned _ _ _ _ Hrun)
    as (_ & Hr & hashed & _ & Hcreated).
  set (w' := snd (bcrypt_hash w (password s))) in Hcreated.
  set (s' := set_password s _) in Hcreated.
  pose proof (create_email w' s') as Hstored.
  rewrite <- Hcreated in Hstored. cbn [fst snd] in Hstored.
  specialize (Hstored Hr).
  change (email s') with (email s) in Hstored.
  run_service. rewrite Hemail.
  destruct (subscriber_by_email w1 (email s)) as [found|]; [| congruence].
  destruct (is_verified found); run_on; split; eauto.
Qed.

(** A deletion that returns has gone through the database. *)
Lemma delete_returned (w w1 : World) (id : string) (b : bool) :
  run (delete id) w = (Returned b, w1) ->
  truthy (fst (delete_subscriber w id)) = true
  /\ w1 = snd (delete_subscriber w id).
Proof.
  run_service.
  destruct (subscriber_by_id w id); run_on; [| discriminate].
  destruct (truthy _) eqn:Hr; run_on; [| discriminate].
  intros H. inversion H. split; reflexivity.
Qed.

(** X9: over a database whose deletion removes what it reports, once
    [delete id] has returned, every method that takes that id raises
    NotFound and leaves the world as it is: [get_by_id], a second [delete],
    [update], [provider_follow] and [provider_unfollow]. *)
Theorem deleted_is_gone {D : Deleting B} (w w1 : World) (id : string)
        (b : bool) :
  run (delete id) w = (Returned b, w1) ->
  (exists msg, run (get_by_id id) w1 = (Raised (NotFoundException msg), w1))
  /\ (exists msg, run (delete id) w1 = (Raised (NotFoundException msg), w1))
  /\ (forall s, exists msg,
         run (update id s) w1 = (Raised (NotFoundException msg), w1))
  /\ (forall p, exists msg,
         run (provider_follow id p) w1 = (Raised (NotFoundException msg), w1))
  /\ (forall p, exists msg,
         run (provider_unfollow id p) w1 =
         (Raised (NotFoundException msg), w1)).
Proof.
  intros Hrun.
  destruct (delete_returned _ _ _ _ Hrun) as (Hr & ->).
  pose proof (delete_lookup w id Hr) as Hgone.
  repeat apply conj; intros; run_service; rewrite Hgone; run_on; eauto.
Qed.

End ServiceComposition.

(** ** The in-memory database registers and deletes *)

Lemma MemDB_registering :
  @Registering MemDB.runtime MemDB.World MemDB.backend.
Proof.
  split. intros w s _. simpl.
  induction (MemDB.subscribers w) as [|x l IH]; simpl.
  - unfold MemDB.has_email. now rewrite String.eqb_refl.
  - destruct (MemDB.has_email (email s) x); [discriminate | exact IH].
Qed.

Lemma MemDB_deleting : @Deleting MemDB.runtime MemDB.World MemDB.backend.
Proof.
  split. intros w i. simpl. unfold MemDB.remove.
  destruct (find (MemDB.has_id i) (MemDB.subscribers w)); simpl;
    [intros _ | discriminate].
  induction (MemDB.subscribers w) as [|x l IH]; simpl; [reflexivity |].
  destruct (MemDB.has_id i x) eqn:Hx; simpl; [exact IH |].
  now rewrite Hx.
Qed.

Section MoreOverMemDB.
Local Existing Instance MemDB.runtime.
Local Existing Instance MemDB.backend.
Local Open Scope string_scope.

Lemma unfollow_then_follow_moves_to_end_witness :
  following world_following_two "3" = Some ["p1"; "p2"]
  /\ NoDup ["p1"; "p2"]
  /\ following
       (snd (run (provider_follow "3" "p1")
               (snd (run (provider_unfollow "3" "p1")
                       world_following_two)))) "3" =
     Some ["p2"; "p1"].
Proof.
  assert (Hnd : NoDup ["p1"; "p2"]).
  { repeat constructor; simpl; [intros [H|[]]; discriminate | tauto]. }
  pose proof (unfollow_then_follow_moves_to_end (P := MemDB_persistent)
                world_following_two _ "3" "p1" ["p1"; "p2"] _
                eq_refl Hnd eq_refl eq_refl)
    as (_ & _ & s1 & Hs1 & _ & Hback).
  split; [reflexivity |]. split; [exact Hnd |].
  injection Hs1 as <-. exact (Hback eq_refl).
Defined.

Lemma second_unfollow_not_found_iff_single_witness :
  following world_following_two "3" = Some ["p1"; "p2"]
  /\ exists msg,
      run (provider_unfollow "3" "p1")
        (snd (run (provider_unfollow "3" "p1") world_following_two)) =
      (Raised (NotFoundException msg),
       snd (run (provider_unfollow "3" "p1") world_following_two)).
Proof.
  pose proof (second_unfollow_not_found_iff_single (P := MemDB_persistent)
                world_following_two _ "3" "p1" ["p1"; "p2"] _
                eq_refl eq_refl eq_refl)
    as (_ & _ & Hiff).
  split; [reflexivity |]. apply Hiff. reflexivity.
Defined.

Lemma follow_unfollow_frame_witness :
  following (snd (run (provider_follow "1" "p2") MemDB.world0)) "2" =
  following MemDB.world0 "2".
Proof.
  exact (proj1 (follow_unfollow_frame (P := MemDB_persistent)
                  MemDB.world0 "1" "p2") "2" ltac:(discriminate)).
Defined.

Lemma create_twice_existing_data_witness :
  exists msg,
    run (create (mkSubscriber "" "dave@example.com" "other" false []))
      (snd (run (create (mkSubscriber "" "dave@example.com" "pw" false []))
              MemDB.world0)) =
    (Raised (ExistingDataException msg),
     snd (run (create (mkSubscriber "" "dave@example.com" "pw" false []))
            MemDB.world0)).
Proof.
  exact (proj1 (create_twice_existing_data (R := MemDB_registering)
                  MemDB.world0 _
                  (mkSubscriber "" "dave@example.com" "pw" false [])
                  (mkSubscriber "" "dave@example.com" "other" false [])
                  _ eq_refl eq_refl)).
Defined.

Lemma deleted_is_gone_witness :
  fst (run (delete "2") MemDB.world0) = Returned true
  /\ exists msg,
      run (get_by_id "2") (snd (run (delete "2") MemDB.world0)) =
      (Raised (NotFoundException msg), snd (run (delete "2") MemDB.world0)).
Proof.
  split; [reflexivity |].
  exact (proj1 (deleted_is_gone (D := MemDB_deleting)
                  MemDB.world0 _ "2" true eq_refl)).
Defined.

End MoreOverMemDB.

(** ** Follow lists without duplicates, one subscriber at a time *)

Section NoDuplicateFollows.
Context {RT : Runtime} {World : Type} {B : Backend World}.
Local Open Scope string_scope.


End NoDuplicateFollows.

(** ** The in-memory database changes no follow list it should not *)




Section NoDuplicateOverMemDB.
Local Existing Instance MemDB.runtime.
Local Existing Instance MemDB.backend.
Local Open Scope string_scope.


End NoDuplicateOverMemDB.
